(** * Session-gated views: [Dashboard] and [Header]

    A shallow embedding of the two client components of the web app
    ([apps/web/src/app/dashboard/page.tsx] and the page header) together
    with the small part of the React runtime they rely on: hooks called in
    order during a render, and a [useEffect] whose callback runs after the
    commit when the component mounts or when one of its dependencies
    changed (compared with [Object.is]). *)

From Stdlib Require Import String List Bool Arith Lia.
From ExtLib Require Import Structures.Monad.
Import ListNotations.
Import MonadNotation.
Local Open Scope monad_scope.
Local Open Scope string_scope.
Local Open Scope list_scope.

Set Implicit Arguments.
#[local] Set Warnings "-register-all".

(** ** Values supplied by the collaborators *)

(** The user object; the components read only its [name]. *)
Record User := { name : string }.

(** The [data] object of [authClient.useSession()].  JavaScript objects have
    an identity, which is what a dependency array compares: [session_ref]
    is that identity, [user] the payload read by [session.user.name]. *)
Record Session := { session_ref : nat; user : User }.

(** What [authClient.useSession()] returns.  The components destructure
    [data] (as [session]) and [isPending]; [error] is returned by the
    provider as well and is read by neither component. *)
Record UseSessionResult := {
  data : option Session;
  isPending : bool;
  error : option string
}.

(** The object returned by [useRouter()], with its identity. *)
Record Router := { router_ref : nat }.

Record QueryOptions := { queryKey : list string }.

(** [orpc.privateData.queryOptions()] *)
Definition orpc_privateData_queryOptions : QueryOptions :=
  {| queryKey := ["privateData"] |}.

Record PrivateData := { message : string }.

(** What [useQuery] returns; [query_data] is [undefined] until resolved. *)
Record QueryResult := { query_data : option PrivateData }.

(** Everything the collaborators hand to one render. *)
Record Env := {
  env_router : Router;
  env_session : UseSessionResult;
  env_query : QueryOptions -> QueryResult
}.

(** ** The part of React the components use *)

(** The values that reach a dependency array here. *)
Inductive JsVal :=
| JNull
| JBool (b : bool)
| JObject (ref : nat).

(** [Object.is] on those values: objects are compared by identity. *)
Definition object_is (a b : JsVal) : bool :=
  match a, b with
  | JNull, JNull => true
  | JBool x, JBool y => Bool.eqb x y
  | JObject r1, JObject r2 => Nat.eqb r1 r2
  | _, _ => false
  end.

(** React's comparison of two dependency arrays. *)
Fixpoint areHookInputsEqual (next prev : list JsVal) : bool :=
  match next, prev with
  | [], [] => true
  | a :: next', b :: prev' => object_is a b && areHookInputsEqual next' prev'
  | _, _ => false
  end.

(** The only observable action of an effect: [router.push(path)]. *)
Inductive Action :=
| Push (r : Router) (path : string).

Definition EffectCallback := unit -> list Action.

(** The hooks a render went through, in call order. *)
Inductive HookCall :=
| UseRouter
| UseSession
| UseQuery (opts : QueryOptions)
| UseEffect.

(** What React keeps for a mounted component between renders: the
    dependency array of its effect at the previous render ([None] before
    the first one). *)
Record Fiber := { effect_deps : option (list JsVal) }.

Definition unmounted : Fiber := {| effect_deps := None |}.

Record HookResult (A : Type) := {
  value : A;
  fiber : Fiber;
  calls : list HookCall;
  effects : list EffectCallback
}.

(** A render reads the environment, threads the fiber and records the
    hooks it calls and the effects it schedules. *)
Definition Hook (A : Type) : Type := Env -> Fiber -> HookResult A.

#[export] Instance Monad_Hook : Monad Hook := {
  ret := fun _ a => fun _ fb =>
    {| value := a; fiber := fb; calls := []; effects := [] |};
  bind := fun _ _ m k => fun env fb =>
    let r1 := m env fb in
    let r2 := k (value r1) env (fiber r1) in
    {| value := value r2; fiber := fiber r2;
       calls := calls r1 ++ calls r2;
       effects := effects r1 ++ effects r2 |}
}.

Definition useRouter : Hook Router := fun env fb =>
  {| value := env_router env; fiber := fb; calls := [UseRouter]; effects := [] |}.

Definition authClient_useSession : Hook UseSessionResult := fun env fb =>
  {| value := env_session env; fiber := fb; calls := [UseSession]; effects := [] |}.

Definition useQuery (opts : QueryOptions) : Hook QueryResult := fun env fb =>
  {| value := env_query env opts; fiber := fb;
     calls := [UseQuery opts]; effects := [] |}.

(** [useEffect(cb, deps)]: the callback is scheduled on the first render
    and whenever [deps] differs from the array of the previous render. *)
Definition useEffect (cb : EffectCallback) (deps : list JsVal) : Hook unit :=
  fun _ fb =>
    let changed :=
      match effect_deps fb with
      | None => true
      | Some prev => negb (areHookInputsEqual deps prev)
      end in
    {| value := tt; fiber := {| effect_deps := Some deps |};
       calls := [UseEffect];
       effects := if changed then [cb] else [] |}.

(** ** Rendered output *)

Inductive Node :=
| Null
| Text (s : string)
| Elem (tag className : string) (children : list Node)
| Link (key href : string) (children : list Node)
| Comp (component : string).

(** [<Loader />] *)
Definition Loader : Node := Comp "Loader".

(** An expression child [{e}] where [e] may be [undefined]. *)
Definition expr_child (e : option string) : list Node :=
  match e with
  | Some s => [Text s]
  | None => []
  end.

Record NavLink := { to : string; label : string }.

(** ** The components *)

Definition session_dep (session : option Session) : JsVal :=
  match session with
  | Some s => JObject (session_ref s)
  | None => JNull
  end.

(** JavaScript truthiness of [session]. *)
Definition truthy (session : option Session) : bool :=
  match session with
  | Some _ => true
  | None => false
  end.

(** The effect both components register:
    [if (!session && !isPending) router.push("/login")]. *)
Definition redirect_effect (session : option Session) (isPending : bool)
    (router : Router) : EffectCallback :=
  fun _ =>
    if negb (truthy session) && negb isPending
    then [Push router "/login"]
    else [].

(** The JSX returned by [Dashboard] once a session is present. *)
Definition Dashboard_view (session : Session) (privateData : QueryResult) : Node :=
  Elem "div" ""
    [ Elem "h1" "" [Text "Dashboard"];
      Elem "p" "" [Text "Welcome "; Text (name (user session))];
      Elem "p" "" (Text "privateData: "
                   :: expr_child (option_map message (query_data privateData))) ].

Definition Dashboard : Hook Node :=
  router <- useRouter ;;
  s <- authClient_useSession ;;
  let session := data s in
  let isPending := isPending s in
  privateData <- useQuery orpc_privateData_queryOptions ;;
  useEffect (redirect_effect session isPending router)
            [session_dep session; JBool isPending; JObject (router_ref router)] ;;
  if isPending then ret Loader
  else
    match session with
    | None => ret Null
    | Some session => ret (Dashboard_view session privateData)
    end.

(** [const links = [ Home, ...(session ? [Dashboard, Todos] : []) ]] *)
Definition links (session : option Session) : list NavLink :=
  [ {| to := "/"; label := "Home" |} ]
  ++ (if truthy session
      then [ {| to := "/dashboard"; label := "Dashboard" |};
             {| to := "/todos"; label := "Todos" |} ]
      else []).

(** The JSX returned by [Header] for a given [links] array. *)
Definition Header_view (links : list NavLink) : Node :=
  Elem "div" ""
    [ Elem "div" "flex flex-row items-center justify-between px-2 py-1"
        [ Elem "nav" "flex gap-4 text-lg"
            (map (fun l => Link (to l) (to l) [Text (label l)]) links);
          Elem "div" "flex items-center gap-2"
            [Comp "ModeToggle"; Comp "UserMenu"] ];
      Elem "hr" "" [] ].

Definition Header : Hook Node :=
  s <- authClient_useSession ;;
  let session := data s in
  let isPending := isPending s in
  router <- useRouter ;;
  useEffect (redirect_effect session isPending router)
            [session_dep session; JBool isPending; JObject (router_ref router)] ;;
  if isPending then ret Loader
  else ret (Header_view (links session)).

(** ** Rendering and committing *)

(** One frame: the hooks called, what is on screen, and the actions the
    effects performed after the commit. *)
Record Frame := {
  frame_hooks : list HookCall;
  frame_output : Node;
  frame_actions : list Action
}.

Definition step (C : Hook Node) (fb : Fiber) (env : Env) : Fiber * Frame :=
  let r := C env fb in
  (fiber r,
   {| frame_hooks := calls r;
      frame_output := value r;
      frame_actions := flat_map (fun cb : EffectCallback => cb tt) (effects r) |}).

(** A mounted component rendered once per observed environment. *)
Fixpoint run (C : Hook Node) (fb : Fiber) (trace : list Env) : list Frame :=
  match trace with
  | [] => []
  | env :: rest =>
      let '(fb', f) := step C fb env in
      f :: run C fb' rest
  end.

Definition mount_run (C : Hook Node) (trace : list Env) : list Frame :=
  run C unmounted trace.

Definition pushes (frames : list Frame) : list Action :=
  flat_map frame_actions frames.

(** Both components mounted in one tree, each with its own fiber, observing
    the same environment: the actions of one frame are those of the header
    followed by those of the page. *)
Fixpoint run_together (hfb dfb : Fiber) (trace : list Env) : list (list Action) :=
  match trace with
  | [] => []
  | env :: rest =>
      let '(hfb', hf) := step Header hfb env in
      let '(dfb', df) := step Dashboard dfb env in
      (frame_actions hf ++ frame_actions df) :: run_together hfb' dfb' rest
  end.

Definition pushes_together (trace : list Env) : list Action :=
  concat (run_together unmounted unmounted trace).

(** ** Reading the output *)

(** The concatenated text of a list of children. *)
Fixpoint text_of (n : Node) : string :=
  match n with
  | Text s => s
  | Elem _ _ cs | Link _ _ cs =>
      fold_right (fun c acc => (text_of c ++ acc)%string) "" cs
  | Null | Comp _ => ""
  end.

(** The navigation links present in a rendered tree, in document order. *)
Fixpoint nav_links (n : Node) : list NavLink :=
  match n with
  | Link _ href cs =>
      [ {| to := href;
           label := fold_right (fun c acc => (text_of c ++ acc)%string) "" cs |} ]
  | Elem _ _ cs => flat_map nav_links cs
  | Null | Text _ | Comp _ => []
  end.

(** ** The session states of the specification *)

Inductive SessionState :=
| Pending
| Unauthenticated
| Authenticated (u : User).

(** The state a tuple [(session, isPending)] stands for. *)
Definition classify (s : UseSessionResult) : SessionState :=
  if isPending s then Pending
  else match data s with
       | None => Unauthenticated
       | Some sess => Authenticated (user sess)
       end.

Definition is_unauth (env : Env) : bool :=
  match classify (env_session env) with
  | Unauthenticated => true
  | _ => false
  end.

(** Number of entries into [Unauthenticated] along a trace; [prev] tells
    whether the observation before the trace was already [Unauthenticated]. *)
Fixpoint transitions (prev : bool) (trace : list Env) : nat :=
  match trace with
  | [] => 0
  | env :: rest =>
      (if is_unauth env && negb prev then 1 else 0)
      + transitions (is_unauth env) rest
  end.

(** A freshly mounted component has observed nothing yet. *)
Definition transitions_into_unauth (trace : list Env) : nat :=
  transitions false trace.

(** The link sets of the specification and its [computeLinks]. *)
Definition baseLinks : list NavLink := [ {| to := "/"; label := "Home" |} ].

Definition gatedLinks : list NavLink :=
  [ {| to := "/dashboard"; label := "Dashboard" |};
    {| to := "/todos"; label := "Todos" |} ].

Definition computeLinks (st : SessionState) (base gated : list NavLink)
    : list NavLink :=
  match st with
  | Authenticated _ => base ++ gated
  | _ => base
  end.

(** ** Sample environments *)

Definition the_router : Router := {| router_ref := 1 |}.

Definition no_query : QueryOptions -> QueryResult :=
  fun _ => {| query_data := None |}.

Definition hello_query : QueryOptions -> QueryResult :=
  fun _ => {| query_data := Some {| message := "This is private" |} |}.

Definition ada : Session := {| session_ref := 7; user := {| name := "Ada" |} |}.

Definition env_of (q : QueryOptions -> QueryResult) (s : option Session)
    (p : bool) (e : option string) : Env :=
  {| env_router := the_router;
     env_session := {| data := s; isPending := p; error := e |};
     env_query := q |}.

Definition env_pending : Env := env_of no_query None true None.
Definition env_unauth : Env := env_of no_query None false None.
Definition env_failed : Env := env_of no_query None false (Some "network error").
Definition env_auth : Env := env_of hello_query (Some ada) false None.
Definition env_refreshing : Env := env_of hello_query (Some ada) true None.

(** The same Unauthenticated tuple handed over with another router object. *)
Definition env_unauth_rerouted : Env :=
  {| env_router := {| router_ref := 2 |};
     env_session := env_session env_unauth;
     env_query := no_query |}.

(** ** The redirect effect, seen from outside *)

(** The dependency array both components pass to [useEffect]. *)
Definition deps_of (env : Env) : list JsVal :=
  [ session_dep (data (env_session env));
    JBool (isPending (env_session env));
    JObject (router_ref (env_router env)) ].

(** Whether React runs the effect of a component in state [fb] when it
    renders under [env]. *)
Definition effect_runs (fb : Fiber) (env : Env) : bool :=
  match effect_deps fb with
  | None => true
  | Some prev => negb (areHookInputsEqual (deps_of env) prev)
  end.

(** What the redirect effect does in one frame. *)
Definition gate_actions (fb : Fiber) (env : Env) : list Action :=
  if effect_runs fb env && is_unauth env
  then [Push (env_router env) "/login"]
  else [].

(** The fiber of a component whose previous render, if any, was under
    [prev]. *)
Definition fiber_after (prev : option Env) : Fiber :=
  match prev with
  | None => unmounted
  | Some env => {| effect_deps := Some (deps_of env) |}
  end.

Definition was_unauth (prev : option Env) : bool :=
  match prev with
  | None => false
  | Some env => is_unauth env
  end.

(** The environment of the render before the [i]-th one. *)
Definition env_before (prev : option Env) (trace : list Env) (i : nat)
    : option Env :=
  match i with
  | 0 => prev
  | S j => nth_error trace j
  end.

Definition same_router (r : Router) (trace : list Env) : Prop :=
  Forall (fun env => env_router env = r) trace.

(** ** Further readings of the output and of a trace *)

(** The [key] of every [<Link>] of a rendered tree, in document order. *)
Fixpoint link_keys (n : Node) : list string :=
  match n with
  | Link key _ _ => [key]
  | Elem _ _ cs => flat_map link_keys cs
  | Null | Text _ | Comp _ => []
  end.

(** The imported components a rendered tree instantiates, in document
    order. *)
Fixpoint components_of (n : Node) : list string :=
  match n with
  | Comp c => [c]
  | Elem _ _ cs | Link _ _ cs => flat_map components_of cs
  | Null | Text _ => []
  end.

(** Number of observations of a trace that are Unauthenticated. *)
Definition unauth_frames (trace : list Env) : nat :=
  length (filter is_unauth trace).

(** The environment [env] with another state of the query cache. *)
Definition with_query (env : Env) (q : QueryOptions -> QueryResult) : Env :=
  {| env_router := env_router env;
     env_session := env_session env;
     env_query := q |}.

(** * Properties *)

(** ** Basic facts about the runtime *)

Lemma object_is_refl (v : JsVal) : object_is v v = true.
Proof.
  destruct v as [ | b | n ]; simpl.
  - reflexivity.
  - apply Bool.eqb_reflx.
  - apply Nat.eqb_refl.
Qed.

Lemma areHookInputsEqual_refl (deps : list JsVal) :
  areHookInputsEqual deps deps = true.
Proof.
  induction deps as [ | v deps IH ]; simpl.
  - reflexivity.
  - now rewrite object_is_refl, IH.
Qed.

Lemma run_cons (C : Hook Node) (fb : Fiber) (env : Env) (rest : list Env) :
  run C fb (env :: rest)
  = snd (step C fb env) :: run C (fst (step C fb env)) rest.
Proof. simpl. destruct (step C fb env); reflexivity. Qed.

Lemma run_length (C : Hook Node) (trace : list Env) :
  forall fb, length (run C fb trace) = length trace.
Proof.
  induction trace as [ | env rest IH ]; intros fb.
  - reflexivity.
  - rewrite run_cons. simpl. now rewrite IH.
Qed.

(** While the router object is the same, the effect of a mounted component
    fires on an [Unauthenticated] observation exactly when the previous
    observation was not [Unauthenticated]. *)
Lemma effect_runs_entering (e0 e : Env) :
  env_router e0 = env_router e ->
  effect_runs (fiber_after (Some e0)) e && is_unauth e
  = is_unauth e && negb (is_unauth e0).
Proof.
  intros Hr. unfold effect_runs, is_unauth, classify, deps_of. simpl.
  rewrite Hr.
  destruct (env_session e) as [d p err], (env_session e0) as [d0 p0 err0].
  simpl.
  destruct p, d as [ s | ]; simpl; try now rewrite Bool.andb_false_r.
  destruct p0, d0 as [ s0 | ]; simpl; try reflexivity.
  now rewrite Nat.eqb_refl.
Qed.

Lemma gate_actions_mount (env : Env) :
  gate_actions unmounted env
  = if is_unauth env then [Push (env_router env) "/login"] else [].
Proof. reflexivity. Qed.

Lemma gate_actions_entering (e0 e : Env) :
  env_router e0 = env_router e ->
  gate_actions (fiber_after (Some e0)) e
  = if is_unauth e && negb (is_unauth e0)
    then [Push (env_router e) "/login"] else [].
Proof.
  intros Hr. unfold gate_actions. now rewrite effect_runs_entering.
Qed.

(** ** What one render of each component does *)

Lemma Dashboard_fiber (fb : Fiber) (env : Env) :
  fst (step Dashboard fb env) = fiber_after (Some env).
Proof.
  unfold step, Dashboard, fiber_after, deps_of. cbn.
  destruct (env_session env) as [d p err]; cbn.
  destruct p, d; reflexivity.
Qed.

Lemma Dashboard_actions (fb : Fiber) (env : Env) :
  frame_actions (snd (step Dashboard fb env)) = gate_actions fb env.
Proof.
  unfold step, Dashboard, gate_actions, effect_runs, is_unauth, classify, deps_of.
  cbn.
  destruct (env_session env) as [d p err]; cbn.
  destruct fb as [[prev | ]]; cbn.
  - destruct (negb _); destruct p, d; reflexivity.
  - destruct p, d; reflexivity.
Qed.

Lemma Header_fiber (fb : Fiber) (env : Env) :
  fst (step Header fb env) = fiber_after (Some env).
Proof.
  unfold step, Header, fiber_after, deps_of. cbn.
  destruct (env_session env) as [d p err]; cbn.
  destruct p; reflexivity.
Qed.

Lemma Header_actions (fb : Fiber) (env : Env) :
  frame_actions (snd (step Header fb env)) = gate_actions fb env.
Proof.
  unfold step, Header, gate_actions, effect_runs, is_unauth, classify, deps_of.
  cbn.
  destruct (env_session env) as [d p err]; cbn.
  destruct fb as [[prev | ]]; cbn.
  - destruct (negb _); destruct p, d; reflexivity.
  - destruct p, d; reflexivity.
Qed.

(** ** Traces of a component carrying the redirect effect *)

Section GatedComponent.

Variable C : Hook Node.
Hypothesis C_fiber :
  forall fb env, fst (step C fb env) = fiber_after (Some env).
Hypothesis C_actions :
  forall fb env, frame_actions (snd (step C fb env)) = gate_actions fb env.

Lemma gated_frame (trace : list Env) :
  forall prev i env,
    nth_error trace i = Some env ->
    nth_error (run C (fiber_after prev) trace) i
    = Some (snd (step C (fiber_after (env_before prev trace i)) env)).
Proof.
  induction trace as [ | e0 rest IH ]; intros prev i env Hi.
  - destruct i; discriminate.
  - rewrite run_cons, C_fiber.
    destruct i as [ | j ]; cbn [nth_error env_before] in *.
    + now inversion Hi.
    + rewrite (IH (Some e0) j env Hi).
      destruct j; reflexivity.
Qed.

Lemma gated_pushes (r : Router) (trace : list Env) :
  forall prev,
    same_router r trace ->
    (forall e0, prev = Some e0 -> env_router e0 = r) ->
    pushes (run C (fiber_after prev) trace)
    = repeat (Push r "/login") (transitions (was_unauth prev) trace).
Proof.
  unfold pushes.
  induction trace as [ | env rest IH ]; intros prev Hall Hprev.
  - reflexivity.
  - inversion Hall as [ | ? ? Hr Hrest ]; subst.
    rewrite run_cons, C_fiber. cbn [flat_map].
    rewrite C_actions, (IH (Some env) Hrest).
    2:{ intros e0 He0. now inversion He0. }
    cbn [transitions]. rewrite repeat_app. f_equal.
    destruct prev as [ e0 | ].
    + rewrite gate_actions_entering by (now rewrite (Hprev e0 eq_refl)).
      cbn [was_unauth].
      destruct (is_unauth env && negb (is_unauth e0)); reflexivity.
    + rewrite gate_actions_mount. cbn [was_unauth negb].
      rewrite Bool.andb_true_r.
      destruct (is_unauth env); reflexivity.
Qed.

(** Every [Unauthenticated] observation belongs to a stretch of
    [Unauthenticated] observations whose first frame issued the redirect. *)
Lemma gated_redirect_issued (r : Router) (trace : list Env) :
  same_router r trace ->
  forall i env,
    nth_error trace i = Some env ->
    is_unauth env = true ->
    exists j fj,
      j <= i /\
      nth_error (mount_run C trace) j = Some fj /\
      frame_actions fj = [Push r "/login"] /\
      forall k ek, j <= k <= i -> nth_error trace k = Some ek ->
                   is_unauth ek = true.
Proof.
  intros Hall. unfold mount_run.
  assert (Hrouter : forall i env, nth_error trace i = Some env ->
                                  env_router env = r).
  { intros i env Hi. unfold same_router in Hall.
    rewrite Forall_forall in Hall. apply Hall.
    now apply nth_error_In with i. }
  induction i as [ | i IH ]; intros env Hi Hun.
  - exists 0, (snd (step C unmounted env)). repeat split.
    + lia.
    + apply (gated_frame trace None 0 Hi).
    + rewrite C_actions, gate_actions_mount, Hun.
      now rewrite (Hrouter 0 env Hi).
    + intros k ek Hk Hek. assert (k = 0) by lia. subst k. congruence.
  - destruct (nth_error trace i) as [ e' | ] eqn:Hi'.
    2:{ apply nth_error_None in Hi'.
        assert (nth_error trace (S i) = None) by (apply nth_error_None; lia).
        congruence. }
    destruct (is_unauth e') eqn:Hun'.
    + destruct (IH e' eq_refl Hun') as (j & fj & Hj & Hfj & Hact & Hrun).
      exists j, fj. repeat split; auto.
      intros k ek Hk Hek.
      destruct (Nat.eq_dec k (S i)) as [ -> | Hne ].
      * congruence.
      * apply (Hrun k ek); [ lia | exact Hek ].
    + exists (S i), (snd (step C (fiber_after (Some e')) env)).
      repeat split.
      * lia.
      * change unmounted with (fiber_after None).
        rewrite (gated_frame trace None (S i) Hi).
        cbn [env_before]. now rewrite Hi'.
      * rewrite C_actions, gate_actions_entering.
        -- rewrite Hun, Hun'. simpl. now rewrite (Hrouter (S i) env Hi).
        -- now rewrite (Hrouter i e' Hi'), (Hrouter (S i) env Hi).
      * intros k ek Hk Hek. assert (k = S i) by lia. subst k. congruence.
Qed.

Lemma gated_actions_login (fb : Fiber) (env : Env) (a : Action) :
  In a (frame_actions (snd (step C fb env))) ->
  a = Push (env_router env) "/login".
Proof.
  rewrite C_actions. unfold gate_actions.
  destruct (effect_runs fb env && is_unauth env); simpl; intuition.
Qed.

End GatedComponent.

(** ** Counting entries into [Unauthenticated] *)

Lemma transitions_app (l1 l2 : list Env) :
  forall prev,
    transitions prev (l1 ++ l2)
    = transitions prev l1
      + transitions (fold_left (fun _ env => is_unauth env) l1 prev) l2.
Proof.
  induction l1 as [ | env l1 IH ]; intros prev; simpl.
  - reflexivity.
  - rewrite IH. lia.
Qed.

Lemma same_router_app (r : Router) (l1 l2 : list Env) :
  same_router r (l1 ++ l2) -> same_router r l1 /\ same_router r l2.
Proof. unfold same_router. apply Forall_app. Qed.

Lemma is_unauth_classify (env : Env) :
  is_unauth env = true <-> classify (env_session env) = Unauthenticated.
Proof.
  unfold is_unauth. destruct (classify (env_session env)); split;
    intros H; try reflexivity; discriminate.
Qed.

Lemma Dashboard_pushes (r : Router) (trace : list Env) :
  same_router r trace ->
  pushes (mount_run Dashboard trace)
  = repeat (Push r "/login") (transitions_into_unauth trace).
Proof.
  intros Hall.
  apply (@gated_pushes Dashboard Dashboard_fiber Dashboard_actions r trace None Hall).
  discriminate.
Qed.

Lemma Header_pushes (r : Router) (trace : list Env) :
  same_router r trace ->
  pushes (mount_run Header trace)
  = repeat (Push r "/login") (transitions_into_unauth trace).
Proof.
  intros Hall.
  apply (@gated_pushes Header Header_fiber Header_actions r trace None Hall).
  discriminate.
Qed.

(** ** SessionGate: the redirect *)

(** C1.  While mounted under one router object, [Dashboard] calls
    [router.push("/login")] once for each entry of the observed tuple into
    Unauthenticated and at no other time.  Observing the same
    Unauthenticated tuple a second time adds no call, and an
    Authenticated, Pending, Unauthenticated sequence after earlier
    observations adds exactly one call. *)
Theorem Dashboard_redirects_once_per_transition (r : Router) (trace : list Env) :
  same_router r trace ->
  pushes (mount_run Dashboard trace)
  = repeat (Push r "/login") (transitions_into_unauth trace)
  /\ (forall pre e,
        trace = pre ++ [e; e] ->
        is_unauth e = true ->
        pushes (mount_run Dashboard trace)
        = pushes (mount_run Dashboard (pre ++ [e])))
  /\ (forall pre a p u usr,
        trace = pre ++ [a; p; u] ->
        classify (env_session a) = Authenticated usr ->
        classify (env_session p) = Pending ->
        is_unauth u = true ->
        pushes (mount_run Dashboard trace)
        = pushes (mount_run Dashboard (pre ++ [a])) ++ [Push r "/login"]).
Proof.
  intros Hall. split; [ now apply Dashboard_pushes | split ].
  - intros pre e -> He.
    assert (Hshort : same_router r (pre ++ [e])).
    { apply same_router_app in Hall as [Hpre Hee].
      apply Forall_app. split; [ exact Hpre | ].
      inversion Hee; subst. repeat constructor; assumption. }
    rewrite (Dashboard_pushes Hall), (Dashboard_pushes Hshort).
    f_equal. unfold transitions_into_unauth.
    rewrite !transitions_app. simpl. rewrite He. simpl. lia.
  - intros pre a p u usr -> Ha Hp Hu.
    assert (Hshort : same_router r (pre ++ [a])).
    { apply same_router_app in Hall as [Hpre Hapu].
      apply Forall_app. split; [ exact Hpre | ].
      inversion Hapu; subst. repeat constructor; assumption. }
    rewrite (Dashboard_pushes Hall), (Dashboard_pushes Hshort).
    rewrite <- (repeat_app (Push r "/login") _ 1).
    f_equal. unfold transitions_into_unauth.
    rewrite !transitions_app. cbn [transitions fold_left].
    assert (Ha' : is_unauth a = false) by (unfold is_unauth; now rewrite Ha).
    assert (Hp' : is_unauth p = false) by (unfold is_unauth; now rewrite Hp).
    rewrite Ha', Hp', Hu. simpl. lia.
Qed.

Lemma Dashboard_redirects_once_per_transition_witness :
  pushes (mount_run Dashboard [env_pending; env_unauth; env_unauth])
  = [Push the_router "/login"]
  /\ pushes (mount_run Dashboard [env_pending; env_unauth; env_unauth])
     = pushes (mount_run Dashboard [env_pending; env_unauth])
  /\ pushes (mount_run Dashboard
               [env_pending; env_unauth; env_auth; env_pending; env_unauth])
     = pushes (mount_run Dashboard [env_pending; env_unauth; env_auth])
       ++ [Push the_router "/login"].
Proof.
  destruct (@Dashboard_redirects_once_per_transition the_router
              [env_pending; env_unauth; env_unauth])
    as (Hcount & Hdup & _).
  { repeat constructor. }
  destruct (@Dashboard_redirects_once_per_transition the_router
              [env_pending; env_unauth; env_auth; env_pending; env_unauth])
    as (_ & _ & Hcycle).
  { repeat constructor. }
  split; [ exact Hcount | split ].
  - apply (Hdup [env_pending] env_unauth); reflexivity.
  - apply (Hcycle [env_pending; env_unauth] env_auth env_pending env_unauth
             (user ada)); reflexivity.
Defined.

(** The sequences named in the specification, evaluated. *)
Example pending_then_unauth :
  pushes (mount_run Dashboard [env_pending; env_unauth])
  = [Push the_router "/login"].
Proof. reflexivity. Qed.

Example duplicate_unauth :
  pushes (mount_run Dashboard [env_pending; env_unauth; env_unauth])
  = [Push the_router "/login"].
Proof. reflexivity. Qed.

(** The router object is one of the effect's dependencies: the hypothesis
    that it stays the same is needed. *)
Example router_identity_matters :
  map frame_actions
      (mount_run Dashboard [env_pending; env_unauth; env_unauth_rerouted])
  = [ []; [Push the_router "/login"];
      [Push {| router_ref := 2 |} "/login"] ].
Proof. reflexivity. Qed.

Example logout_cycle :
  map frame_actions
      (mount_run Dashboard
         [env_pending; env_unauth; env_pending; env_auth;
          env_pending; env_unauth; env_unauth])
  = [ []; [Push the_router "/login"]; []; []; [];
      [Push the_router "/login"]; [] ].
Proof. reflexivity. Qed.

(** ** What is on screen *)

Lemma Dashboard_output (fb : Fiber) (env : Env) :
  frame_output (snd (step Dashboard fb env))
  = if isPending (env_session env) then Loader
    else match data (env_session env) with
         | None => Null
         | Some s => Dashboard_view s (env_query env orpc_privateData_queryOptions)
         end.
Proof.
  unfold step, Dashboard. cbn.
  destruct (isPending (env_session env)); [ reflexivity | ].
  destruct (data (env_session env)); reflexivity.
Qed.

Lemma Header_output (fb : Fiber) (env : Env) :
  frame_output (snd (step Header fb env))
  = if isPending (env_session env) then Loader
    else Header_view (links (data (env_session env))).
Proof.
  unfold step, Header. cbn.
  destruct (isPending (env_session env)); reflexivity.
Qed.

Lemma Dashboard_hooks (fb : Fiber) (env : Env) :
  frame_hooks (snd (step Dashboard fb env))
  = [UseRouter; UseSession; UseQuery orpc_privateData_queryOptions; UseEffect].
Proof.
  unfold step, Dashboard. cbn.
  destruct (isPending (env_session env)); [ reflexivity | ].
  destruct (data (env_session env)); reflexivity.
Qed.

Lemma unauth_fields (env : Env) :
  is_unauth env = true ->
  data (env_session env) = None /\ isPending (env_session env) = false.
Proof.
  unfold is_unauth, classify.
  destruct (isPending (env_session env)); [ discriminate | ].
  destruct (data (env_session env)); [ discriminate | auto ].
Qed.

Lemma pending_not_unauth (env : Env) :
  isPending (env_session env) = true -> is_unauth env = false.
Proof. unfold is_unauth, classify. now intros ->. Qed.

Lemma session_not_unauth (env : Env) (s : Session) :
  data (env_session env) = Some s -> is_unauth env = false.
Proof.
  unfold is_unauth, classify. intros ->.
  destruct (isPending (env_session env)); reflexivity.
Qed.

Lemma gate_actions_quiet (fb : Fiber) (env : Env) :
  is_unauth env = false -> gate_actions fb env = [].
Proof.
  unfold gate_actions. intros ->. now rewrite Bool.andb_false_r.
Qed.

(** C5.  Along any run of a mounted [Dashboard] under one router object:
    a frame observed with the session absent and [isPending] false,
    whatever the provider's [error] field holds, renders nothing, and the
    stretch of such observations it belongs to opened with a frame that
    called [router.push("/login")]; every call made is to ["/login"]; and a
    frame that shows anything but the loader or nothing shows the protected
    view of a session that is present. *)
Theorem Dashboard_fails_closed (r : Router) (trace : list Env) :
  same_router r trace ->
  forall i env f,
    nth_error trace i = Some env ->
    nth_error (mount_run Dashboard trace) i = Some f ->
    (is_unauth env = true ->
       frame_output f = Null /\
       exists j fj,
         j <= i /\
         nth_error (mount_run Dashboard trace) j = Some fj /\
         frame_actions fj = [Push r "/login"] /\
         forall k ek, j <= k <= i -> nth_error trace k = Some ek ->
                      is_unauth ek = true)
    /\ (forall a, In a (frame_actions f) -> a = Push r "/login")
    /\ (frame_output f <> Loader ->
        frame_output f <> Null ->
        exists s,
          data (env_session env) = Some s /\
          isPending (env_session env) = false /\
          frame_output f
          = Dashboard_view s (env_query env orpc_privateData_queryOptions)).
Proof.
  intros Hall i env f Hi Hf.
  assert (Hr : env_router env = r).
  { unfold same_router in Hall. rewrite Forall_forall in Hall.
    apply Hall. now apply nth_error_In with i. }
  unfold mount_run in Hf. change unmounted with (fiber_after None) in Hf.
  rewrite (@gated_frame Dashboard Dashboard_fiber trace None i env Hi) in Hf.
  assert (Hfeq : f = snd (step Dashboard
                            (fiber_after (env_before None trace i)) env))
    by congruence.
  clear Hf. subst f.
  split; [ | split ].
  - intros Hun. split.
    + rewrite Dashboard_output.
      destruct (unauth_fields env Hun) as [-> ->]. reflexivity.
    + exact (@gated_redirect_issued Dashboard Dashboard_fiber Dashboard_actions
               r trace Hall i env Hi Hun).
  - intros a Ha. rewrite <- Hr.
    exact (@gated_actions_login Dashboard Dashboard_actions _ env a Ha).
  - rewrite Dashboard_output. intros HnL HnN.
    destruct (isPending (env_session env)); [ now elim HnL | ].
    destruct (data (env_session env)) as [ s | ]; [ | now elim HnN ].
    exists s. auto.
Qed.

Lemma Dashboard_fails_closed_witness :
  frame_output (snd (step Dashboard (fiber_after (Some env_failed)) env_failed))
  = Null
  /\ exists j fj,
       j <= 2 /\
       nth_error (mount_run Dashboard [env_pending; env_failed; env_failed]) j
       = Some fj /\
       frame_actions fj = [Push the_router "/login"] /\
       forall k ek,
         j <= k <= 2 ->
         nth_error [env_pending; env_failed; env_failed] k = Some ek ->
         is_unauth ek = true.
Proof.
  destruct (@Dashboard_fails_closed the_router
              [env_pending; env_failed; env_failed]
              ltac:(repeat constructor)
              2 env_failed
              (snd (step Dashboard (fiber_after (Some env_failed)) env_failed))
              eq_refl eq_refl)
    as (Hunauth & _ & _).
  exact (Hunauth eq_refl).
Defined.

(** C6.  Whatever was rendered before, a render of [Dashboard] with a
    session present and [isPending] false returns the protected view: the
    heading, the welcome line with the [name] of that session's [user], and
    the private-data line; no call to the router is made in that frame. *)
Theorem Dashboard_authenticated (fb : Fiber) (env : Env) (s : Session) :
  data (env_session env) = Some s ->
  isPending (env_session env) = false ->
  frame_output (snd (step Dashboard fb env))
  = Elem "div" ""
      [ Elem "h1" "" [Text "Dashboard"];
        Elem "p" "" [Text "Welcome "; Text (name (user s))];
        Elem "p" ""
          (Text "privateData: "
           :: expr_child
                (option_map message
                   (query_data (env_query env orpc_privateData_queryOptions)))) ]
  /\ frame_actions (snd (step Dashboard fb env)) = [].
Proof.
  intros Hs Hp. split.
  - rewrite Dashboard_output, Hp, Hs. reflexivity.
  - rewrite Dashboard_actions.
    apply gate_actions_quiet. now apply session_not_unauth with s.
Qed.

Lemma Dashboard_authenticated_witness :
  frame_output (snd (step Dashboard (fiber_after (Some env_pending)) env_auth))
  = Elem "div" ""
      [ Elem "h1" "" [Text "Dashboard"];
        Elem "p" "" [Text "Welcome "; Text "Ada"];
        Elem "p" "" [Text "privateData: "; Text "This is private"] ]
  /\ frame_actions
       (snd (step Dashboard (fiber_after (Some env_pending)) env_auth)) = [].
Proof.
  exact (@Dashboard_authenticated (fiber_after (Some env_pending)) env_auth ada
           eq_refl eq_refl).
Defined.

(** ** Both components while the session is pending *)

(** C7.  With [isPending] true, [Dashboard] and [Header] each return the
    loader, their effect calls nothing on the router, and the header
    output contains no link at all. *)
Theorem pending_shows_loader_only (dfb hfb : Fiber) (env : Env) :
  isPending (env_session env) = true ->
  (frame_output (snd (step Dashboard dfb env)) = Loader /\
   frame_actions (snd (step Dashboard dfb env)) = [])
  /\ (frame_output (snd (step Header hfb env)) = Loader /\
      frame_actions (snd (step Header hfb env)) = [] /\
      nav_links (frame_output (snd (step Header hfb env))) = []).
Proof.
  intros Hp.
  pose proof (pending_not_unauth env Hp) as Hq.
  repeat split.
  - now rewrite Dashboard_output, Hp.
  - rewrite Dashboard_actions. now apply gate_actions_quiet.
  - now rewrite Header_output, Hp.
  - rewrite Header_actions. now apply gate_actions_quiet.
  - now rewrite Header_output, Hp.
Qed.

Lemma pending_shows_loader_only_witness :
  (frame_output (snd (step Dashboard unmounted env_pending)) = Loader /\
   frame_actions (snd (step Dashboard unmounted env_pending)) = [])
  /\ (frame_output (snd (step Header unmounted env_pending)) = Loader /\
      frame_actions (snd (step Header unmounted env_pending)) = [] /\
      nav_links (frame_output (snd (step Header unmounted env_pending))) = []).
Proof.
  exact (@pending_shows_loader_only unmounted unmounted env_pending eq_refl).
Defined.

(** C10.  A tuple with a session object and [isPending] true counts as
    Pending: both components return the loader and call nothing on the
    router; [Dashboard] does not return the protected view of that session
    and no gated link is in the header output.  This holds in every
    component state, in particular right after an Authenticated frame. *)
Theorem pending_wins_over_session (dfb hfb : Fiber) (env : Env) (s : Session) :
  data (env_session env) = Some s ->
  isPending (env_session env) = true ->
  classify (env_session env) = Pending
  /\ (frame_output (snd (step Dashboard dfb env)) = Loader /\
      frame_output (snd (step Dashboard dfb env))
      <> Dashboard_view s (env_query env orpc_privateData_queryOptions) /\
      frame_actions (snd (step Dashboard dfb env)) = [])
  /\ (frame_output (snd (step Header hfb env)) = Loader /\
      (forall l, In l gatedLinks ->
                 ~ In l (nav_links (frame_output (snd (step Header hfb env))))) /\
      frame_actions (snd (step Header hfb env)) = []).
Proof.
  intros Hs Hp.
  pose proof (pending_not_unauth env Hp) as Hq.
  split; [ | split; [ split; [ | split ] | split; [ | split ] ] ].
  - unfold classify. now rewrite Hp.
  - now rewrite Dashboard_output, Hp.
  - rewrite Dashboard_output, Hp. discriminate.
  - rewrite Dashboard_actions. now apply gate_actions_quiet.
  - now rewrite Header_output, Hp.
  - intros l _. rewrite Header_output, Hp. simpl. tauto.
  - rewrite Header_actions. now apply gate_actions_quiet.
Qed.

Lemma pending_wins_over_session_witness :
  classify (env_session env_refreshing) = Pending
  /\ frame_output
       (snd (step Dashboard (fiber_after (Some env_auth)) env_refreshing))
     = Loader
  /\ frame_output
       (snd (step Header (fiber_after (Some env_auth)) env_refreshing))
     = Loader.
Proof.
  destruct (@pending_wins_over_session
              (fiber_after (Some env_auth)) (fiber_after (Some env_auth))
              env_refreshing ada eq_refl eq_refl)
    as (Hc & (Hd & _) & (Hh & _)).
  exact (conj Hc (conj Hd Hh)).
Defined.

(** ** SessionGate: the private-data query *)

(** C9.  Every render of [Dashboard] calls [useQuery] with the
    [privateData] query options, after [useRouter] and [useSession] and
    before the effect and the pending and session tests, whatever the
    session tuple is; so does every frame of a run. *)
Theorem Dashboard_always_queries_privateData :
  (forall fb env,
     frame_hooks (snd (step Dashboard fb env))
     = [UseRouter; UseSession; UseQuery orpc_privateData_queryOptions; UseEffect])
  /\ (forall fb trace,
        length (run Dashboard fb trace) = length trace /\
        Forall (fun f => In (UseQuery orpc_privateData_queryOptions)
                            (frame_hooks f))
               (run Dashboard fb trace))
  /\ In (UseQuery orpc_privateData_queryOptions)
        (frame_hooks (snd (step Dashboard unmounted env_pending)))
  /\ In (UseQuery orpc_privateData_queryOptions)
        (frame_hooks (snd (step Dashboard unmounted env_unauth))).
Proof.
  split; [ exact Dashboard_hooks | split; [ | split ] ].
  - intros fb trace. split; [ apply run_length | ].
    revert fb. induction trace as [ | env rest IH ]; intros fb.
    + constructor.
    + rewrite run_cons. constructor.
      * rewrite Dashboard_hooks. simpl. tauto.
      * apply IH.
  - rewrite Dashboard_hooks. simpl. tauto.
  - rewrite Dashboard_hooks. simpl. tauto.
Qed.

(** ** ConditionalNavigation: the links *)

Lemma nav_links_Header_view (ls : list NavLink) :
  nav_links (Header_view ls) = ls.
Proof.
  unfold Header_view. cbn [nav_links flat_map]. rewrite !app_nil_r.
  induction ls as [ | [t lbl] ls IH ]; cbn [map flat_map nav_links].
  - reflexivity.
  - cbn [fold_right text_of to label]. rewrite IH.
    cbn [app]. do 2 f_equal.
    induction lbl as [ | c lbl IHl ]; simpl; [ reflexivity | now rewrite IHl ].
Qed.

(** C2.  Once the session is resolved, the links in the header output are
    [links session]: the base list followed by the gated list when a
    session is present and the base list alone when it is absent, in the
    order of declaration; that is Home alone, or Home, Dashboard, Todos. *)
Theorem Header_visible_links (fb : Fiber) (env : Env) :
  isPending (env_session env) = false ->
  nav_links (frame_output (snd (step Header fb env)))
  = computeLinks (classify (env_session env)) baseLinks gatedLinks
  /\ (data (env_session env) = None ->
      nav_links (frame_output (snd (step Header fb env)))
      = [ {| to := "/"; label := "Home" |} ])
  /\ (forall s, data (env_session env) = Some s ->
      nav_links (frame_output (snd (step Header fb env)))
      = [ {| to := "/"; label := "Home" |};
          {| to := "/dashboard"; label := "Dashboard" |};
          {| to := "/todos"; label := "Todos" |} ]).
Proof.
  intros Hp. rewrite Header_output, Hp, nav_links_Header_view.
  unfold classify. rewrite Hp.
  destruct (data (env_session env)) as [ s | ]; repeat split;
    try reflexivity; intros; discriminate.
Qed.

Lemma Header_visible_links_witness :
  nav_links (frame_output (snd (step Header unmounted env_unauth)))
  = [ {| to := "/"; label := "Home" |} ]
  /\ nav_links (frame_output (snd (step Header unmounted env_auth)))
     = [ {| to := "/"; label := "Home" |};
         {| to := "/dashboard"; label := "Dashboard" |};
         {| to := "/todos"; label := "Todos" |} ].
Proof.
  destruct (@Header_visible_links unmounted env_unauth eq_refl)
    as (_ & Hnone & _).
  destruct (@Header_visible_links unmounted env_auth eq_refl)
    as (_ & _ & Hsome).
  exact (conj (Hnone eq_refl) (Hsome ada eq_refl)).
Defined.

Lemma nav_links_Dashboard_view (s : Session) (q : QueryResult) :
  nav_links (Dashboard_view s q) = [].
Proof.
  unfold Dashboard_view. destruct q as [[ [m] | ]]; reflexivity.
Qed.

(** C8.  A gated link (Dashboard, Todos) is in the header output exactly
    when the tuple is Authenticated; it is in no output rendered for a
    Pending or Unauthenticated tuple, and [Dashboard] renders no link in
    any state. *)
Theorem gated_links_only_when_authenticated
    (hfb dfb : Fiber) (env : Env) (l : NavLink) :
  In l gatedLinks ->
  (In l (nav_links (frame_output (snd (step Header hfb env))))
   <-> exists u, classify (env_session env) = Authenticated u)
  /\ nav_links (frame_output (snd (step Dashboard dfb env))) = [].
Proof.
  intros Hl. split.
  - rewrite Header_output. unfold classify.
    destruct (isPending (env_session env)).
    + simpl. split; [ tauto | intros [u Hu]; discriminate ].
    + rewrite nav_links_Header_view. unfold links.
      destruct (data (env_session env)) as [ s | ]; simpl.
      * split; [ intros _; now exists (user s) | intros _ ].
        simpl in Hl. tauto.
      * split; [ | intros [u Hu]; discriminate ].
        intros [ <- | [] ]. simpl in Hl.
        destruct Hl as [ H | [ H | [] ] ]; discriminate.
  - rewrite Dashboard_output.
    destruct (isPending (env_session env)); [ reflexivity | ].
    destruct (data (env_session env)); [ | reflexivity ].
    apply nav_links_Dashboard_view.
Qed.

Lemma gated_links_only_when_authenticated_witness :
  ~ In {| to := "/todos"; label := "Todos" |}
       (nav_links (frame_output (snd (step Header unmounted env_unauth))))
  /\ In {| to := "/todos"; label := "Todos" |}
        (nav_links (frame_output (snd (step Header unmounted env_auth)))).
Proof.
  split.
  - intros Hin.
    destruct (proj1 (proj1 (@gated_links_only_when_authenticated
                              unmounted unmounted env_unauth
                              {| to := "/todos"; label := "Todos" |}
                              (or_intror (or_introl eq_refl)))) Hin)
      as [u Hu].
    discriminate Hu.
  - apply (proj1 (@gated_links_only_when_authenticated
                    unmounted unmounted env_auth
                    {| to := "/todos"; label := "Todos" |}
                    (or_intror (or_introl eq_refl)))).
    now exists (user ada).
Defined.

(** ** ConditionalNavigation: the redirect it also carries *)

(** C3, as stated, fails: mounted with the session absent and resolved,
    [Header] calls [router.push("/login")]. *)
Lemma Header_calls_push :
  frame_actions (snd (step Header unmounted env_unauth))
  = [Push the_router "/login"]
  /\ pushes (mount_run Header [env_pending; env_unauth])
     = [Push the_router "/login"]
  /\ ~ (forall fb env, frame_actions (snd (step Header fb env)) = []).
Proof.
  split; [ reflexivity | split; [ reflexivity | ] ].
  intros H. specialize (H unmounted env_unauth). discriminate H.
Qed.

(** C3, amended.  What [Header] renders depends only on [isPending] and on
    whether a session is present, not on earlier renders, the router or
    the component state.  It is not free of side effects: it registers the
    same effect as [Dashboard], which calls [router.push("/login")] when it
    runs (on mount, or when [session], [isPending] or [router] changed)
    with the session absent and [isPending] false, and calls nothing for a
    Pending or Authenticated tuple. *)
Theorem Header_renders_from_tuple_and_redirects :
  (forall fb1 fb2 env1 env2,
     truthy (data (env_session env1)) = truthy (data (env_session env2)) ->
     isPending (env_session env1) = isPending (env_session env2) ->
     frame_output (snd (step Header fb1 env1))
     = frame_output (snd (step Header fb2 env2)))
  /\ (forall fb env,
        frame_actions (snd (step Header fb env))
        = if effect_runs fb env && is_unauth env
          then [Push (env_router env) "/login"]
          else [])
  /\ (forall fb env,
        is_unauth env = false ->
        frame_actions (snd (step Header fb env)) = [])
  /\ (forall env,
        is_unauth env = true ->
        frame_actions (snd (step Header unmounted env))
        = [Push (env_router env) "/login"]).
Proof.
  split; [ | split; [ | split ] ].
  - intros fb1 fb2 env1 env2 Hs Hp.
    rewrite !Header_output, Hp. unfold links. now rewrite Hs.
  - exact Header_actions.
  - intros fb env Hq. rewrite Header_actions. now apply gate_actions_quiet.
  - intros env Hu. now rewrite Header_actions, gate_actions_mount, Hu.
Qed.

Lemma Header_renders_from_tuple_and_redirects_witness :
  frame_output (snd (step Header unmounted env_unauth))
  = frame_output (snd (step Header (fiber_after (Some env_auth)) env_failed))
  /\ frame_actions (snd (step Header unmounted env_auth)) = []
  /\ frame_actions (snd (step Header unmounted env_failed))
     = [Push the_router "/login"].
Proof.
  destruct Header_renders_from_tuple_and_redirects
    as (Hout & _ & Hquiet & Hpush).
  split; [ | split ].
  - apply Hout; reflexivity.
  - apply Hquiet. reflexivity.
  - apply (Hpush env_failed). reflexivity.
Defined.

(** ** Both components mounted *)

Lemma run_together_cons (hfb dfb : Fiber) (env : Env) (rest : list Env) :
  run_together hfb dfb (env :: rest)
  = (frame_actions (snd (step Header hfb env))
     ++ frame_actions (snd (step Dashboard dfb env)))
    :: run_together (fst (step Header hfb env))
                    (fst (step Dashboard dfb env)) rest.
Proof.
  simpl. destruct (step Header hfb env), (step Dashboard dfb env).
  reflexivity.
Qed.

Lemma gate_actions_repeat (r : Router) (prev : option Env) (env : Env) :
  env_router env = r ->
  (forall e0, prev = Some e0 -> env_router e0 = r) ->
  gate_actions (fiber_after prev) env
  = repeat (Push r "/login")
           (if is_unauth env && negb (was_unauth prev) then 1 else 0).
Proof.
  intros Hr Hprev. destruct prev as [ e0 | ].
  - rewrite gate_actions_entering by (now rewrite (Hprev e0 eq_refl)).
    cbn [was_unauth]. rewrite Hr.
    destruct (is_unauth env && negb (is_unauth e0)); reflexivity.
  - rewrite gate_actions_mount. cbn [was_unauth negb].
    rewrite Bool.andb_true_r, Hr.
    destruct (is_unauth env); reflexivity.
Qed.

Lemma together_pushes (r : Router) (trace : list Env) :
  forall prev,
    same_router r trace ->
    (forall e0, prev = Some e0 -> env_router e0 = r) ->
    concat (run_together (fiber_after prev) (fiber_after prev) trace)
    = repeat (Push r "/login") (2 * transitions (was_unauth prev) trace).
Proof.
  induction trace as [ | env rest IH ]; intros prev Hall Hprev.
  - reflexivity.
  - inversion Hall as [ | ? ? Hr Hrest ]; subst.
    rewrite run_together_cons, Header_fiber, Dashboard_fiber.
    cbn [concat transitions].
    rewrite Header_actions, Dashboard_actions, (IH (Some env) Hrest).
    2:{ intros e0 He0. now inversion He0. }
    rewrite (@gate_actions_repeat (env_router env) prev env eq_refl Hprev).
    rewrite <- !repeat_app. f_equal. cbn [was_unauth]. lia.
Qed.

(** C4, as stated, fails: with the header and the dashboard both mounted,
    one entry into Unauthenticated produces two calls to [push]. *)
Lemma both_mounted_push_twice :
  transitions_into_unauth [env_pending; env_unauth] = 1
  /\ pushes_together [env_pending; env_unauth]
     = [Push the_router "/login"; Push the_router "/login"]
  /\ ~ (forall trace,
          same_router the_router trace ->
          length (pushes_together trace) <= transitions_into_unauth trace).
Proof.
  split; [ reflexivity | split; [ reflexivity | ] ].
  intros H.
  specialize (H [env_pending; env_unauth] ltac:(repeat constructor)).
  vm_compute in H. lia.
Qed.

(** C4, amended.  Under one router object, each mounted component calls
    [router.push("/login")] exactly once per entry into Unauthenticated;
    with the header and the dashboard both mounted that makes two calls per
    entry, all of them to ["/login"]. *)
Theorem each_component_redirects_once (r : Router) (trace : list Env) :
  same_router r trace ->
  pushes (mount_run Header trace)
  = repeat (Push r "/login") (transitions_into_unauth trace)
  /\ pushes (mount_run Dashboard trace)
     = repeat (Push r "/login") (transitions_into_unauth trace)
  /\ pushes_together trace
     = repeat (Push r "/login") (2 * transitions_into_unauth trace).
Proof.
  intros Hall. split; [ | split ].
  - now apply Header_pushes.
  - now apply Dashboard_pushes.
  - apply (@together_pushes r trace None Hall). discriminate.
Qed.

Lemma each_component_redirects_once_witness :
  same_router the_router
    [env_pending; env_unauth; env_unauth; env_pending; env_auth;
     env_pending; env_failed]
  /\ pushes_together
       [env_pending; env_unauth; env_unauth; env_pending; env_auth;
        env_pending; env_failed]
     = repeat (Push the_router "/login") 4.
Proof.
  assert (Hall : same_router the_router
                   [env_pending; env_unauth; env_unauth; env_pending; env_auth;
                    env_pending; env_failed])
    by (repeat constructor).
  split; [ exact Hall | ].
  exact (proj2 (proj2 (each_component_redirects_once Hall))).
Defined.

(** * Further properties of the two components *)

(** ** Frames of a run *)

Lemma run_nth (C : Hook Node) (trace : list Env) :
  forall fb i env f,
    nth_error trace i = Some env ->
    nth_error (run C fb trace) i = Some f ->
    exists fb', f = snd (step C fb' env).
Proof.
  induction trace as [ | e0 rest IH ]; intros fb i env f Hi Hf.
  - destruct i; discriminate.
  - rewrite run_cons in Hf. destruct i as [ | j ]; cbn [nth_error] in *.
    + exists fb. congruence.
    + exact (IH _ j env f Hi Hf).
Qed.

Lemma run_In (C : Hook Node) (trace : list Env) :
  forall fb f,
    In f (run C fb trace) ->
    exists fb' env, In env trace /\ f = snd (step C fb' env).
Proof.
  induction trace as [ | e0 rest IH ]; intros fb f Hf.
  - destruct Hf.
  - rewrite run_cons in Hf. destruct Hf as [ <- | Hf ].
    + exists fb, e0. split; [ now left | reflexivity ].
    + destruct (IH _ f Hf) as (fb' & env & Hin & ->).
      exists fb', env. split; [ now right | reflexivity ].
Qed.

Lemma Header_hooks (fb : Fiber) (env : Env) :
  frame_hooks (snd (step Header fb env)) = [UseSession; UseRouter; UseEffect].
Proof.
  unfold step, Header. cbn.
  destruct (isPending (env_session env)); reflexivity.
Qed.

(** X1.  Every frame of a run of [Header], the ones returning the loader
    included, calls [useSession], [useRouter] and [useEffect] in that order
    and nothing else: the header never calls [useQuery]. *)
Theorem Header_never_queries (fb : Fiber) (trace : list Env) (f : Frame) :
  In f (run Header fb trace) ->
  frame_hooks f = [UseSession; UseRouter; UseEffect]
  /\ forall opts, ~ In (UseQuery opts) (frame_hooks f).
Proof.
  intros Hf. destruct (run_In Header trace fb f Hf) as (fb' & env & _ & ->).
  rewrite Header_hooks. split; [ reflexivity | ].
  intros opts [ H | [ H | [ H | [] ] ] ]; discriminate.
Qed.

Lemma Header_never_queries_witness :
  frame_hooks (snd (step Header (fiber_after (Some env_pending)) env_auth))
  = [UseSession; UseRouter; UseEffect].
Proof.
  apply (@Header_never_queries unmounted [env_pending; env_auth]
           (snd (step Header (fiber_after (Some env_pending)) env_auth))).
  right. left. reflexivity.
Defined.

(** ** The text [Dashboard] puts on screen *)

Lemma string_app_nil_r (s : string) : (s ++ "")%string = s.
Proof. induction s as [ | c s IH ]; simpl; [ reflexivity | now rewrite IH ]. Qed.

Lemma string_app_assoc (a b c : string) :
  ((a ++ b) ++ c)%string = (a ++ (b ++ c))%string.
Proof. induction a as [ | x a IH ]; simpl; [ reflexivity | now rewrite IH ]. Qed.

(** X2.  With a session present and resolved, the text of the dashboard is
    the heading, the welcome line with the user's name and the private-data
    line; while the query has no data ([privateData.data] undefined) the
    last line is the bare prefix, and once it has, the message follows. *)
Theorem Dashboard_text (fb : Fiber) (env : Env) (s : Session) :
  data (env_session env) = Some s ->
  isPending (env_session env) = false ->
  text_of (frame_output (snd (step Dashboard fb env)))
  = ("Dashboard" ++ "Welcome " ++ name (user s) ++ "privateData: "
     ++ match query_data (env_query env orpc_privateData_queryOptions) with
        | Some d => message d
        | None => ""
        end)%string.
Proof.
  intros Hs Hp. rewrite Dashboard_output, Hp, Hs.
  unfold Dashboard_view.
  destruct (query_data (env_query env orpc_privateData_queryOptions))
    as [ d | ]; cbn; rewrite !string_app_nil_r; do 17 f_equal;
    now rewrite string_app_assoc.
Qed.

Lemma Dashboard_text_witness :
  text_of (frame_output (snd (step Dashboard unmounted env_auth)))
  = "DashboardWelcome AdaprivateData: This is private"
  /\ text_of (frame_output
                (snd (step Dashboard unmounted (with_query env_auth no_query))))
     = "DashboardWelcome AdaprivateData: ".
Proof.
  split.
  - exact (@Dashboard_text unmounted env_auth ada eq_refl eq_refl).
  - exact (@Dashboard_text unmounted (with_query env_auth no_query) ada
             eq_refl eq_refl).
Defined.

(** ** What the dashboard output depends on *)

(** X3.  The output of the [i]-th frame of a run of [Dashboard] depends on
    the [i]-th observation alone, and there only on [isPending], on the
    user of the session and on the result of the private-data query: two
    runs, whatever their earlier observations, initial states, routers and
    session object identities, show the same thing when these agree. *)
Theorem Dashboard_output_history_free
    (fb1 fb2 : Fiber) (tr1 tr2 : list Env) (i : nat)
    (e1 e2 : Env) (f1 f2 : Frame) :
  nth_error tr1 i = Some e1 ->
  nth_error tr2 i = Some e2 ->
  nth_error (run Dashboard fb1 tr1) i = Some f1 ->
  nth_error (run Dashboard fb2 tr2) i = Some f2 ->
  isPending (env_session e1) = isPending (env_session e2) ->
  option_map user (data (env_session e1))
  = option_map user (data (env_session e2)) ->
  env_query e1 orpc_privateData_queryOptions
  = env_query e2 orpc_privateData_queryOptions ->
  frame_output f1 = frame_output f2.
Proof.
  intros H1 H2 Hf1 Hf2 Hp Hu Hq.
  destruct (run_nth Dashboard tr1 fb1 i H1 Hf1) as [fb1' ->].
  destruct (run_nth Dashboard tr2 fb2 i H2 Hf2) as [fb2' ->].
  rewrite !Dashboard_output, Hp, Hq.
  destruct (isPending (env_session e2)); [ reflexivity | ].
  destruct (data (env_session e1)) as [ s1 | ],
           (data (env_session e2)) as [ s2 | ]; simpl in Hu;
    try discriminate; [ | reflexivity ].
  unfold Dashboard_view. injection Hu as ->. reflexivity.
Qed.

Lemma Dashboard_output_history_free_witness :
  frame_output
    (snd (step Dashboard (fiber_after (Some env_pending)) env_auth))
  = frame_output
      (snd (step Dashboard (fiber_after (Some env_unauth))
              {| env_router := {| router_ref := 2 |};
                 env_session :=
                   {| data := Some {| session_ref := 8; user := user ada |};
                      isPending := false;
                      error := None |};
                 env_query := hello_query |})).
Proof.
  apply (@Dashboard_output_history_free
           unmounted unmounted
           [env_pending; env_auth]
           [env_unauth;
            {| env_router := {| router_ref := 2 |};
               env_session :=
                 {| data := Some {| session_ref := 8; user := user ada |};
                    isPending := false;
                    error := None |};
               env_query := hello_query |}]
           1 env_auth _ _ _ eq_refl eq_refl eq_refl eq_refl);
    reflexivity.
Defined.

(** X4.  The private-data query is issued in every state, but its result
    reaches the screen only behind the gate: while the tuple is pending or
    the session is absent, the dashboard output carries no text and is the
    same whatever the query cache holds. *)
Theorem Dashboard_hides_privateData
    (fb : Fiber) (env : Env) (q : QueryOptions -> QueryResult) :
  isPending (env_session env) = true \/ data (env_session env) = None ->
  text_of (frame_output (snd (step Dashboard fb env))) = ""
  /\ frame_output (snd (step Dashboard fb (with_query env q)))
     = frame_output (snd (step Dashboard fb env))
  /\ In (UseQuery orpc_privateData_queryOptions)
        (frame_hooks (snd (step Dashboard fb env))).
Proof.
  intros Hgate. rewrite !Dashboard_output, Dashboard_hooks.
  unfold with_query; cbn [env_session env_query].
  destruct (isPending (env_session env)).
  - repeat split; simpl; tauto.
  - destruct Hgate as [ Hp | Hs ]; [ discriminate | ].
    rewrite Hs. repeat split; simpl; tauto.
Qed.

Lemma Dashboard_hides_privateData_witness :
  text_of (frame_output (snd (step Dashboard unmounted env_unauth))) = ""
  /\ frame_output
       (snd (step Dashboard unmounted (with_query env_unauth hello_query)))
     = Null.
Proof.
  destruct (@Dashboard_hides_privateData unmounted env_unauth hello_query
              (or_intror eq_refl))
    as (Htext & Hsame & _).
  exact (conj Htext Hsame).
Defined.

(** ** When the redirect effect fires *)

Lemma gate_actions_same_env (env : Env) :
  gate_actions (fiber_after (Some env)) env = [].
Proof.
  unfold gate_actions, effect_runs. cbn [fiber_after effect_deps].
  now rewrite areHookInputsEqual_refl.
Qed.

Lemma gate_actions_router_change (e0 e : Env) :
  router_ref (env_router e0) <> router_ref (env_router e) ->
  is_unauth e = true ->
  gate_actions (fiber_after (Some e0)) e = [Push (env_router e) "/login"].
Proof.
  intros Hne Hun. unfold gate_actions, effect_runs.
  cbn [fiber_after effect_deps]. rewrite Hun. unfold deps_of.
  cbn [areHookInputsEqual object_is].
  assert (Hr : Nat.eqb (router_ref (env_router e)) (router_ref (env_router e0))
               = false)
    by (apply Nat.eqb_neq; congruence).
  rewrite Hr. cbn [andb]. now rewrite !Bool.andb_false_r.
Qed.

Lemma gate_actions_state_change (e0 e : Env) :
  is_unauth e0 = false ->
  is_unauth e = true ->
  gate_actions (fiber_after (Some e0)) e = [Push (env_router e) "/login"].
Proof.
  intros H0 Hun. unfold gate_actions, effect_runs.
  cbn [fiber_after effect_deps]. rewrite Hun. unfold deps_of.
  destruct (unauth_fields e Hun) as [-> ->].
  revert H0. unfold is_unauth, classify.
  destruct (env_session e0) as [d0 p0 err0]. cbn.
  destruct p0, d0 as [ s0 | ]; cbn; intros H0;
    try reflexivity; discriminate.
Qed.

Lemma gate_actions_shape (fb : Fiber) (env : Env) :
  gate_actions fb env = []
  \/ (is_unauth env = true /\
      gate_actions fb env = [Push (env_router env) "/login"]).
Proof.
  unfold gate_actions.
  destruct (effect_runs fb env), (is_unauth env); simpl; auto.
Qed.

Section GatedTraces.

Variable C : Hook Node.
Hypothesis C_fiber :
  forall fb env, fst (step C fb env) = fiber_after (Some env).
Hypothesis C_actions :
  forall fb env, frame_actions (snd (step C fb env)) = gate_actions fb env.

Lemma gated_snoc (pre : list Env) :
  forall fb e0 e,
    pushes (run C fb (pre ++ [e0; e]))
    = pushes (run C fb (pre ++ [e0]))
      ++ gate_actions (fiber_after (Some e0)) e.
Proof.
  unfold pushes.
  induction pre as [ | x pre IH ]; intros fb e0 e; cbn [app].
  - rewrite !run_cons, C_fiber. cbn [run flat_map].
    rewrite !C_actions, !app_nil_r. reflexivity.
  - rewrite !run_cons. cbn [flat_map]. rewrite IH. now rewrite app_assoc.
Qed.

Lemma gated_duplicate (pre : list Env) :
  forall fb e post,
    pushes (run C fb (pre ++ e :: e :: post))
    = pushes (run C fb (pre ++ e :: post)).
Proof.
  unfold pushes.
  induction pre as [ | x pre IH ]; intros fb e post; cbn [app].
  - rewrite !run_cons, !C_fiber. cbn [flat_map].
    now rewrite (C_actions (fiber_after (Some e)) e), gate_actions_same_env.
  - rewrite !run_cons. cbn [flat_map]. now rewrite IH.
Qed.

Lemma gated_bound (trace : list Env) :
  forall fb, length (pushes (run C fb trace)) <= unauth_frames trace.
Proof.
  unfold pushes, unauth_frames.
  induction trace as [ | env rest IH ]; intros fb.
  - apply le_n.
  - rewrite run_cons. cbn [flat_map filter].
    rewrite length_app, C_actions.
    specialize (IH (fst (step C fb env))).
    destruct (gate_actions_shape fb env) as [ -> | [-> ->] ].
    + destruct (is_unauth env); cbn [length]; lia.
    + cbn [length]. lia.
Qed.

Lemma gated_frame_shape (fb : Fiber) (trace : list Env) (i : nat)
    (env : Env) (f : Frame) :
  nth_error trace i = Some env ->
  nth_error (run C fb trace) i = Some f ->
  frame_actions f = []
  \/ (is_unauth env = true /\
      frame_actions f = [Push (env_router env) "/login"]).
Proof.
  intros Hi Hf. destruct (run_nth C trace fb i Hi Hf) as [fb' ->].
  rewrite C_actions. apply gate_actions_shape.
Qed.

Lemma gated_mount_head (env : Env) (rest : list Env) :
  is_unauth env = true ->
  hd_error (pushes (mount_run C (env :: rest)))
  = Some (Push (env_router env) "/login").
Proof.
  intros Hun. unfold mount_run, pushes. rewrite run_cons. cbn [flat_map].
  now rewrite C_actions, gate_actions_mount, Hun.
Qed.

End GatedTraces.

(** X5.  In any run of either component, from any state and with routers
    that may change, a frame performs at most one action: nothing, or one
    [push] of ["/login"] on the router of that very render, and the latter
    only when that render observed the session absent and resolved. *)
Theorem redirect_is_one_push_to_login
    (dfb hfb : Fiber) (trace : list Env) (i : nat) (env : Env)
    (fd fh : Frame) :
  nth_error trace i = Some env ->
  nth_error (run Dashboard dfb trace) i = Some fd ->
  nth_error (run Header hfb trace) i = Some fh ->
  (frame_actions fd = []
   \/ (is_unauth env = true /\
       frame_actions fd = [Push (env_router env) "/login"]))
  /\ (frame_actions fh = []
      \/ (is_unauth env = true /\
          frame_actions fh = [Push (env_router env) "/login"])).
Proof.
  intros Hi Hd Hh. split.
  - exact (@gated_frame_shape Dashboard Dashboard_actions dfb trace i env fd
             Hi Hd).
  - exact (@gated_frame_shape Header Header_actions hfb trace i env fh Hi Hh).
Qed.

Lemma redirect_is_one_push_to_login_witness :
  (frame_actions
     (snd (step Dashboard (fiber_after (Some env_pending)) env_unauth_rerouted))
   = []
   \/ (is_unauth env_unauth_rerouted = true /\
       frame_actions
         (snd (step Dashboard (fiber_after (Some env_pending))
                 env_unauth_rerouted))
       = [Push {| router_ref := 2 |} "/login"]))
  /\ (frame_actions
        (snd (step Header (fiber_after (Some env_pending)) env_unauth_rerouted))
      = []
      \/ (is_unauth env_unauth_rerouted = true /\
          frame_actions
            (snd (step Header (fiber_after (Some env_pending))
                    env_unauth_rerouted))
          = [Push {| router_ref := 2 |} "/login"])).
Proof.
  exact (@redirect_is_one_push_to_login unmounted unmounted
           [env_pending; env_unauth_rerouted] 1 env_unauth_rerouted
           _ _ eq_refl eq_refl eq_refl).
Defined.

(** X6.  Whatever the routers and the initial states, a run of either
    component makes no more calls to [push] than it has Unauthenticated
    observations; a run that never observes the session absent and
    resolved never redirects. *)
Theorem redirects_bounded_by_unauth_frames
    (dfb hfb : Fiber) (trace : list Env) :
  length (pushes (run Dashboard dfb trace)) <= unauth_frames trace
  /\ length (pushes (run Header hfb trace)) <= unauth_frames trace
  /\ (unauth_frames trace = 0 ->
      pushes (run Dashboard dfb trace) = []
      /\ pushes (run Header hfb trace) = []).
Proof.
  pose proof (@gated_bound Dashboard Dashboard_actions trace dfb) as Hd.
  pose proof (@gated_bound Header Header_actions trace hfb) as Hh.
  repeat split; try assumption.
  - apply length_zero_iff_nil. lia.
  - apply length_zero_iff_nil. lia.
Qed.

Lemma redirects_bounded_by_unauth_frames_witness :
  pushes (run Dashboard unmounted [env_pending; env_auth; env_refreshing]) = []
  /\ pushes (run Header unmounted [env_pending; env_auth; env_refreshing]) = [].
Proof.
  apply (@redirects_bounded_by_unauth_frames unmounted unmounted
           [env_pending; env_auth; env_refreshing]).
  reflexivity.
Defined.

(** X7.  The router object is a dependency of the effect: when a render
    observes the session absent and resolved with a router object other
    than the one of the previous render, both components call [push] again,
    on the new router, even if the previous render was Unauthenticated
    too. *)
Theorem router_change_reissues_redirect (pre : list Env) (e0 e : Env) :
  router_ref (env_router e0) <> router_ref (env_router e) ->
  is_unauth e = true ->
  pushes (mount_run Dashboard (pre ++ [e0; e]))
  = pushes (mount_run Dashboard (pre ++ [e0])) ++ [Push (env_router e) "/login"]
  /\ pushes (mount_run Header (pre ++ [e0; e]))
     = pushes (mount_run Header (pre ++ [e0])) ++ [Push (env_router e) "/login"].
Proof.
  intros Hne Hun. unfold mount_run.
  rewrite (@gated_snoc Dashboard Dashboard_fiber Dashboard_actions pre),
          (@gated_snoc Header Header_fiber Header_actions pre).
  now rewrite (gate_actions_router_change e0 e Hne Hun).
Qed.

Lemma router_change_reissues_redirect_witness :
  pushes (mount_run Dashboard [env_pending; env_unauth; env_unauth_rerouted])
  = [Push the_router "/login"; Push {| router_ref := 2 |} "/login"]
  /\ pushes (mount_run Header [env_pending; env_unauth; env_unauth_rerouted])
     = [Push the_router "/login"; Push {| router_ref := 2 |} "/login"].
Proof.
  apply (@router_change_reissues_redirect [env_pending] env_unauth
           env_unauth_rerouted).
  - discriminate.
  - reflexivity.
Defined.

(** X8.  Entering Unauthenticated always redirects, with no assumption on
    the router: a render that observes the session absent and resolved
    right after a render that did not (pending, or a session present)
    adds one [push] of ["/login"], and so does the first render of a
    component mounted on such a tuple. *)
Theorem entering_unauth_always_redirects (pre rest : list Env) (e0 e : Env) :
  is_unauth e0 = false ->
  is_unauth e = true ->
  (pushes (mount_run Dashboard (pre ++ [e0; e]))
   = pushes (mount_run Dashboard (pre ++ [e0])) ++ [Push (env_router e) "/login"]
   /\ pushes (mount_run Header (pre ++ [e0; e]))
      = pushes (mount_run Header (pre ++ [e0]))
        ++ [Push (env_router e) "/login"])
  /\ (hd_error (pushes (mount_run Dashboard (e :: rest)))
      = Some (Push (env_router e) "/login")
      /\ hd_error (pushes (mount_run Header (e :: rest)))
         = Some (Push (env_router e) "/login")).
Proof.
  intros H0 Hun. split; split.
  - unfold mount_run.
    rewrite (@gated_snoc Dashboard Dashboard_fiber Dashboard_actions pre).
    now rewrite (gate_actions_state_change e0 e H0 Hun).
  - unfold mount_run.
    rewrite (@gated_snoc Header Header_fiber Header_actions pre).
    now rewrite (gate_actions_state_change e0 e H0 Hun).
  - exact (@gated_mount_head Dashboard Dashboard_actions e rest Hun).
  - exact (@gated_mount_head Header Header_actions e rest Hun).
Qed.

Lemma entering_unauth_always_redirects_witness :
  pushes (mount_run Dashboard [env_auth; env_unauth_rerouted])
  = [Push {| router_ref := 2 |} "/login"]
  /\ hd_error (pushes (mount_run Header [env_failed; env_pending]))
     = Some (Push the_router "/login").
Proof.
  split.
  - apply (@entering_unauth_always_redirects [] [] env_auth env_unauth_rerouted);
      reflexivity.
  - apply (@entering_unauth_always_redirects [] [env_pending] env_auth env_failed);
      reflexivity.
Defined.

(** X9.  A re-render under an unchanged environment (an unrelated state
    change above the component) is invisible to the router: inserting a
    repeated observation anywhere in a run, in any session state, leaves
    the calls to [push] of both components unchanged. *)
Theorem rerender_adds_no_redirect
    (dfb hfb : Fiber) (pre post : list Env) (e : Env) :
  pushes (run Dashboard dfb (pre ++ e :: e :: post))
  = pushes (run Dashboard dfb (pre ++ e :: post))
  /\ pushes (run Header hfb (pre ++ e :: e :: post))
     = pushes (run Header hfb (pre ++ e :: post)).
Proof.
  split.
  - apply (@gated_duplicate Dashboard Dashboard_fiber Dashboard_actions).
  - apply (@gated_duplicate Header Header_fiber Header_actions).
Qed.

(** X10.  The two components redirect in lockstep: started from the same
    state on the same observations, the header and the dashboard perform
    the same actions frame by frame, so with both mounted every frame's
    calls are those of the dashboard twice over. *)
Theorem Header_and_Dashboard_redirect_together (trace : list Env) :
  forall fb,
    map frame_actions (run Header fb trace)
    = map frame_actions (run Dashboard fb trace)
    /\ run_together fb fb trace
       = map (fun f => frame_actions f ++ frame_actions f)
             (run Dashboard fb trace).
Proof.
  induction trace as [ | env rest IH ]; intros fb.
  - split; reflexivity.
  - rewrite !run_cons, run_together_cons, Header_fiber, Dashboard_fiber.
    cbn [map]. rewrite Header_actions, Dashboard_actions.
    destruct (IH (fiber_after (Some env))) as [-> ->]. split; reflexivity.
Qed.

(** ** Which of the three outputs is shown *)

(** X11.  Both components show the loader exactly when [isPending] is true,
    so their placeholders appear and disappear together; the dashboard
    renders nothing exactly when the session is absent and resolved, and
    the header never renders nothing. *)
Theorem loader_and_empty_frames (dfb hfb : Fiber) (env : Env) :
  (frame_output (snd (step Dashboard dfb env)) = Loader
   <-> isPending (env_session env) = true)
  /\ (frame_output (snd (step Header hfb env)) = Loader
      <-> isPending (env_session env) = true)
  /\ (frame_output (snd (step Dashboard dfb env)) = Null
      <-> is_unauth env = true)
  /\ frame_output (snd (step Header hfb env)) <> Null.
Proof.
  rewrite Dashboard_output, Header_output. unfold is_unauth, classify.
  destruct (isPending (env_session env)).
  - repeat split; try reflexivity; try discriminate.
  - destruct (data (env_session env)) as [ s | ];
      repeat split; try reflexivity; try discriminate;
      intros H; discriminate H.
Qed.

(** ** The header markup *)

Lemma link_keys_Header_view (ls : list NavLink) :
  link_keys (Header_view ls) = map to ls.
Proof.
  unfold Header_view. cbn [link_keys flat_map]. rewrite !app_nil_r.
  induction ls as [ | l ls IH ]; cbn [map flat_map link_keys].
  - reflexivity.
  - now rewrite IH.
Qed.

(** X12.  Every link the header renders uses its target as React key and
    as [href], and in every state the keys of the rendered links are
    pairwise distinct. *)
Theorem Header_link_keys_unique (fb : Fiber) (env : Env) :
  link_keys (frame_output (snd (step Header fb env)))
  = map to (nav_links (frame_output (snd (step Header fb env))))
  /\ NoDup (link_keys (frame_output (snd (step Header fb env)))).
Proof.
  rewrite Header_output.
  destruct (isPending (env_session env)).
  - split; [ reflexivity | constructor ].
  - rewrite link_keys_Header_view, nav_links_Header_view.
    split; [ reflexivity | ].
    unfold links. destruct (data (env_session env)) as [ s | ]; cbn.
    + repeat constructor; simpl; intuition discriminate.
    + repeat constructor; simpl; intuition.
Qed.

(** X13.  Once the session is resolved the header shows its Home link
    first and instantiates the theme toggle and the user menu whether or
    not a session is present; while pending it instantiates the loader
    alone. *)
Theorem Header_chrome_not_gated (fb : Fiber) (env : Env) :
  (isPending (env_session env) = false ->
   components_of (frame_output (snd (step Header fb env)))
   = ["ModeToggle"; "UserMenu"]
   /\ hd_error (nav_links (frame_output (snd (step Header fb env))))
      = Some {| to := "/"; label := "Home" |})
  /\ (isPending (env_session env) = true ->
      components_of (frame_output (snd (step Header fb env))) = ["Loader"]).
Proof.
  rewrite Header_output. split; intros ->.
  - rewrite nav_links_Header_view. split; [ | reflexivity ].
    unfold Header_view. cbn [components_of flat_map]. rewrite !app_nil_r.
    assert (Hnone : forall ls : list NavLink,
               flat_map components_of
                 (map (fun l => Link (to l) (to l) [Text (label l)]) ls) = []).
    { induction ls as [ | l ls IH ]; [ reflexivity | ].
      cbn [map flat_map components_of]. now rewrite IH. }
    now rewrite Hnone.
  - reflexivity.
Qed.

Lemma Header_chrome_not_gated_witness :
  components_of (frame_output (snd (step Header unmounted env_unauth)))
  = ["ModeToggle"; "UserMenu"]
  /\ components_of (frame_output (snd (step Header unmounted env_pending)))
     = ["Loader"].
Proof.
  split.
  - apply (proj1 (@Header_chrome_not_gated unmounted env_unauth) eq_refl).
  - apply (proj2 (@Header_chrome_not_gated unmounted env_pending) eq_refl).
Defined.
